(** * j-u-p-iter/repl: the evaluation protocol of the REPL

    A shallow embedding of the TypeScript sources of the repository:

    - [src/Repl.ts] (module [Repl]): the session facade with the custom
      method registry and the asynchronous evaluation function;
    - the first draft of the same class (module [Part000]): a synchronous
      evaluation function that runs the raw input, with no compile step;
    - [Compiler] (module [Compiler]): the adapter that rewrites a top-level
      [await] and hands the text to the injected TypeScript compiler;
    - the entry point of the package (module [Part001]).

    The collaborators that are not code of the repository (the
    [node-repl-await] rewriting, the TypeScript compiler, Node's [vm] and
    [repl] modules) are variables of the sections that use them. *)

From Stdlib Require Import String Ascii List.
From stdpp Require Import base option list sorting gmap strings.

Local Open Scope string_scope.

(** ** The JavaScript values the program inspects *)

Module Js.

(** The primitive values a property of a thrown value may hold.  Numbers,
    symbols and nested objects are left out: the code only ever compares a
    property with a string literal or matches it against a pattern. *)
Inductive JsPrim : Type :=
  | JsUndefined
  | JsNull
  | JsBool (b : bool)
  | JsString (s : string).

(** A value that reaches a [catch] clause: the code [throw null] throws a
    primitive, an [Error] is an object with the properties [name] and
    [message]. *)
Inductive JsValue : Type :=
  | Prim (p : JsPrim)
  | Obj (props : gmap string JsPrim).

(** The outcome of running a piece of JavaScript: it returns or it throws. *)
Inductive Completion (A : Type) : Type :=
  | Normal (a : A)
  | Throw (e : JsValue).
Arguments Normal {A} a.
Arguments Throw {A} e.

#[export] Instance Completion_ret : MRet Completion := fun _ a => Normal a.
#[export] Instance Completion_bind : MBind Completion := fun _ _ k c =>
  match c with
  | Normal a => k a
  | Throw e => Throw e
  end.

(** [new Error(message)] with its [name], as the engine builds it. *)
Definition errorObject (name message : string) : JsValue :=
  Obj (<["name" := JsString name]> (<["message" := JsString message]> ∅)).

Definition typeError (message : string) : JsValue :=
  errorObject "TypeError" message.

(** [v.k] for the two property names the program reads, [name] and
    [message].  Reading a property of [undefined] or [null] throws a
    [TypeError]; a boolean or a string has no such property; a missing
    property of an object reads as [undefined]. *)
Definition getProp (v : JsValue) (k : string) : Completion JsPrim :=
  match v with
  | Prim JsUndefined =>
      Throw (typeError ("Cannot read properties of undefined (reading '" +:+ k +:+ "')"))
  | Prim JsNull =>
      Throw (typeError ("Cannot read properties of null (reading '" +:+ k +:+ "')"))
  | Prim (JsBool _) | Prim (JsString _) => Normal JsUndefined
  | Obj props => Normal (default JsUndefined (props !! k))
  end.

(** [p === s] for a string literal [s]: no coercion. *)
Definition strictEqString (p : JsPrim) (s : string) : bool :=
  match p with
  | JsString t => bool_decide (t = s)
  | _ => false
  end.

(** The string conversion [RegExp.prototype.test] applies to its argument. *)
Definition toString (p : JsPrim) : string :=
  match p with
  | JsUndefined => "undefined"
  | JsNull => "null"
  | JsBool true => "true"
  | JsBool false => "false"
  | JsString s => s
  end.

(** [a || b] where [a] is [null] or a string: [null] and the empty string
    are falsy. *)
Definition jsOr (a : option string) (b : string) : string :=
  match a with
  | None => b
  | Some EmptyString => b
  | Some s => s
  end.

(** [/^(Unexpected end of input|Unexpected token)/.test(s)]: the pattern is
    anchored at the start and has no flag, so it is a case-sensitive prefix
    test against the two alternatives. *)
Definition unexpectedPattern_test (s : string) : bool :=
  String.prefix "Unexpected end of input" s || String.prefix "Unexpected token" s.

End Js.

Import Js.

(** ** The arguments of the completion callback *)

(** First argument of [callback]: [null], [new Recoverable(error)] or the
    caught value itself. *)
Inductive ErrArg : Type :=
  | ErrNull
  | ErrRecoverable (error : JsValue)
  | ErrValue (error : JsValue).

(** Second argument of [callback]: [null], nothing at all (so the callee sees
    [undefined], as it does for a [let result] never assigned), or the value
    the sandbox produced. *)
Inductive ResultArg (Value : Type) : Type :=
  | ResNull
  | ResUndefined
  | ResValue (v : Value).
Arguments ResNull {Value}.
Arguments ResUndefined {Value}.
Arguments ResValue {Value} v.

(** What one call of the evaluation function leaves behind: the calls of
    the callback in order, the value that left the function uncaught (the
    rejection of the promise of the [async] version, the exception of the
    synchronous one) and the execution context. *)
Record Evaluation (Value Context : Type) : Type := mkEvaluation {
  calls : list (ErrArg * ResultArg Value);
  escaped : option JsValue;
  context : Context
}.
Arguments mkEvaluation {Value Context} calls escaped context.
Arguments calls {Value Context} e.
Arguments escaped {Value Context} e.
Arguments context {Value Context} e.

(** ** [Compiler]: the source compiler adapter *)

Module Compiler.

(** The calls the adapter makes to its collaborators, in order. *)
Inductive Call : Type :=
  | CallProcessTopLevelAwait (code : string)
  | CallTsCompile (fileName code : string).

(** A computation that records the collaborator calls it makes. *)
Definition Logged (A : Type) : Type := list Call * A.

Definition lbind {A B} (c : Logged A) (k : A -> Logged B) : Logged B :=
  let '(l1, a) := c in
  let '(l2, b) := k a in
  ((l1 ++ l2)%list, b).

Section Compiler.
(** [processTopLevelAwait] of [node-repl-await]: the rewritten text, or
    [null] when there is nothing to rewrite. *)
Variable processTopLevelAwait : string -> option string.
(** [tsCompiler.compile] of the injected compiler. *)
Variable tsCompiler_compile : string -> string -> Completion string.

Definition call_processTopLevelAwait (code : string) : Logged (option string) :=
  ([CallProcessTopLevelAwait code], processTopLevelAwait code).

Definition call_tsCompiler_compile (fileName code : string)
  : Logged (Completion string) :=
  ([CallTsCompile fileName code], tsCompiler_compile fileName code).

(** The statement transform: [processTopLevelAwait(code) || code]. *)
Definition transform (code : string) : string :=
  jsOr (processTopLevelAwait code) code.

(** [compile(fileName, code)] with the calls it makes. *)
Definition compile_logged (fileName code : string) : Logged (Completion string) :=
  lbind (call_processTopLevelAwait code) (fun rewritten =>
  let resultCode := jsOr rewritten code in
  call_tsCompiler_compile fileName resultCode).

Definition compile (fileName code : string) : Completion string :=
  snd (compile_logged fileName code).
End Compiler.

End Compiler.

(** ** The first draft of the class (no compile step) *)

Module Part000.

Definition isRecoverableError (error : JsValue) : Completion bool :=
  name ← getProp error "name";
  if strictEqString name "SyntaxError"
  then
    message ← getProp error "message";
    mret (unexpectedPattern_test (toString message))
  else mret false.

Section Engine.
Context {Value Ctx : Type}.
(** [vm.runInThisContext]: runs the text against the global context. *)
Variable runInThisContext : string -> Ctx -> Completion Value * Ctx.

(** [evaluateCode(code, _, __, callback)].  A caught value that is not
    recoverable falls out of the [catch] clause, and the last line
    reports [result], still unassigned. *)
Definition evaluateCode (code : string) (ctx : Ctx) : Evaluation Value Ctx :=
  let '(outcome, ctx') := runInThisContext code ctx in
  match outcome with
  | Normal result => mkEvaluation [(ErrNull, ResValue result)] None ctx'
  | Throw error =>
      match isRecoverableError error with
      | Throw e => mkEvaluation [] (Some e) ctx'
      | Normal true => mkEvaluation [(ErrRecoverable error, ResUndefined)] None ctx'
      | Normal false => mkEvaluation [(ErrNull, ResUndefined)] None ctx'
      end
  end.
End Engine.

End Part000.

(** ** [src/Repl.ts] *)

Module Repl.

(** What a name of the execution context is bound to: the closure
    [(...args) => handler(this, ...args)] that [registerCustomMethods]
    installs, or a value the evaluated code put there. *)
Inductive Binding (Handler Value : Type) : Type :=
  | BoundMethod (handler : Handler)
  | BoundValue (v : Value).
Arguments BoundMethod {Handler Value} handler.
Arguments BoundValue {Handler Value} v.

(** The server [start] returns, as far as this class uses it: the table of
    its dot commands, keyword to help text.  It is started with
    [useGlobal: true], so its [context] is the global object itself, kept in
    the session state below and not in the server. *)
Record REPLServer : Type := mkREPLServer {
  commands : gmap string string
}.

(** The fields of the class, with the global object the server shares.

    [customMethods] is an object literal: its own entries are listed in the
    order in which they were created, and an assignment to its property
    [__proto__] creates no entry but makes the assigned object its
    prototype, kept in [customMethodsProto].  [server] is [None] until [run]
    is called. *)
Record Session (Handler Options Value : Type) : Type := mkSession {
  customMethods : list (string * (Handler * Options));
  customMethodsProto : option (Handler * Options);
  server : option REPLServer;
  global : gmap string (Binding Handler Value)
}.
Arguments mkSession {Handler Options Value} customMethods customMethodsProto
  server global.
Arguments customMethods {Handler Options Value} s.
Arguments customMethodsProto {Handler Options Value} s.
Arguments server {Handler Options Value} s.
Arguments global {Handler Options Value} s.

(** *** Properties of an object, in the order JavaScript keeps them *)

Definition digitValue (a : ascii) : option N :=
  let n := N_of_ascii a in
  if decide (48 <= n <= 57)%N then Some (n - 48)%N else None.

Fixpoint digitsValue (s : string) (acc : N) : option N :=
  match s with
  | EmptyString => Some acc
  | String a rest =>
      match digitValue a with
      | Some d => digitsValue rest (10 * acc + d)%N
      | None => None
      end
  end.

(** The array index a property key is, if it is one: a decimal numeral with
    no leading zero whose value is below [2^32 - 1]. *)
Definition arrayIndex (key : string) : option N :=
  if decide (key = "") then None
  else if decide (key = "0") then Some 0%N
  else if String.prefix "0" key then None
  else match digitsValue key 0 with
       | Some i => if decide (i < 4294967295)%N then Some i else None
       | None => None
       end.

(** The order of two entries whose keys are array indices. *)
Definition indexLe {V : Type} (a b : N * V) : Prop := (fst a <= fst b)%N.

#[export] Instance indexLe_dec {V : Type} (a b : N * V) : Decision (indexLe a b) :=
  decide (fst a <= fst b)%N.

(** [Object.entries(o)] for the own entries [props] of [o]: the keys that
    are array indices first, in ascending numeric order, then the other keys
    in the order in which they were created. *)
Definition objectEntries {V : Type} (props : list (string * V)) : list (string * V) :=
  (snd <$> merge_sort indexLe
             (omap (fun p => (fun i => (i, p)) <$> arrayIndex (fst p)) props))
  ++ filter (fun p => arrayIndex (fst p) = None) props.

(** [o[key] = v] on the own entries of [o], for a key other than
    [__proto__]: an existing entry keeps its place, a new one comes last. *)
Fixpoint setOwn {V : Type} (key : string) (v : V) (props : list (string * V))
  : list (string * V) :=
  match props with
  | [] => [(key, v)]
  | (key', v') :: rest =>
      if decide (key' = key) then (key, v) :: rest
      else (key', v') :: setOwn key v rest
  end.

(** The own entry of [o] under [key]. *)
Definition getOwn {V : Type} (props : list (string * V)) (key : string) : option V :=
  (list_to_map props : gmap string V) !! key.

Definition isRecoverableError (error : JsValue) : Completion bool :=
  name ← getProp error "name";
  if strictEqString name "SyntaxError"
  then
    message ← getProp error "message";
    mret (unexpectedPattern_test (toString message))
  else mret false.

Section Repl.
Context {Handler Options Value : Type}.
(** The two collaborators of [this.compiler]. *)
Variable processTopLevelAwait : string -> option string.
Variable tsCompiler_compile : string -> string -> Completion string.
(** [await vm.runInThisContext(compiledCode)]: runs the text against the
    global object and gives the value it settles to, or what it throws. *)
Variable runInThisContext :
  string -> gmap string (Binding Handler Value) ->
  Completion Value * gmap string (Binding Handler Value).

(** The [catch] clause of [evaluateCode]. *)
Definition onCaught (error : JsValue) (ctx : gmap string (Binding Handler Value))
  : Evaluation Value (gmap string (Binding Handler Value)) :=
  match isRecoverableError error with
  | Throw e => mkEvaluation [] (Some e) ctx
  | Normal true => mkEvaluation [(ErrRecoverable error, ResNull)] None ctx
  | Normal false => mkEvaluation [(ErrValue error, ResNull)] None ctx
  end.

(** [evaluateCode(code, _, fileName, callback)]. *)
Definition evaluateCode (code fileName : string)
    (ctx : gmap string (Binding Handler Value))
  : Evaluation Value (gmap string (Binding Handler Value)) :=
  match Compiler.compile processTopLevelAwait tsCompiler_compile fileName code with
  | Throw error => onCaught error ctx
  | Normal compiledCode =>
      let '(outcome, ctx') := runInThisContext compiledCode ctx in
      match outcome with
      | Throw error => onCaught error ctx'
      | Normal result => mkEvaluation [(ErrNull, ResValue result)] None ctx'
      end
  end.

(** [error] is what the [catch] clause of a turn receives, and [ctx'] the
    execution context at that point: the compile step threw, or the
    execution of the compiled text did. *)
Definition caught (code fileName : string)
    (ctx : gmap string (Binding Handler Value)) (error : JsValue)
    (ctx' : gmap string (Binding Handler Value)) : Prop :=
  (Compiler.compile processTopLevelAwait tsCompiler_compile fileName code = Throw error
   /\ ctx' = ctx)
  \/ exists compiledCode,
       Compiler.compile processTopLevelAwait tsCompiler_compile fileName code
         = Normal compiledCode /\
       runInThisContext compiledCode ctx = (Throw error, ctx').

(** The server calls [eval] once for every text it submits, one call after
    the other, each against the global object as the previous one left it. *)
Fixpoint runTurns (fileName : string) (codes : list string)
    (ctx : gmap string (Binding Handler Value))
  : list (Evaluation Value (gmap string (Binding Handler Value)))
    * gmap string (Binding Handler Value) :=
  match codes with
  | [] => ([], ctx)
  | code :: rest =>
      let ev := evaluateCode code fileName ctx in
      let '(evs, ctx') := runTurns fileName rest (context ev) in
      (ev :: evs, ctx')
  end.

(** The execution context when the turn of index [n] starts. *)
Definition contextAt (fileName : string) (codes : list string)
    (ctx : gmap string (Binding Handler Value)) (n : nat)
  : gmap string (Binding Handler Value) :=
  snd (runTurns fileName (take n codes) ctx).

End Repl.

Section Facade.
Context {Handler Options Value : Type}.
(** [start] of Node's [repl] module, called with the options of
    [startReplServer]: the server it returns (with the commands Node
    predefines) and the global object as it leaves it (with
    [useGlobal: true] it defines [_], [_error], [require], [module] and the
    built-in modules there). *)
Variable start :
  gmap string (Binding Handler Value) ->
  REPLServer * gmap string (Binding Handler Value).
(** The names that cannot be assigned on the global object when [run] is
    called: [NaN], [Infinity] and [undefined] in every engine, and whatever
    else the host or earlier code made read-only.  In the strict code of a
    class an assignment to such a name throws. *)
Variable readOnlyGlobal : string -> bool.

(** A method of the class: it ends normally or throws, and leaves the
    session in some state either way. *)
Definition andThen
    (first next : Session Handler Options Value ->
                  Completion unit * Session Handler Options Value)
    (s : Session Handler Options Value)
  : Completion unit * Session Handler Options Value :=
  match first s with
  | (Normal _, s') => next s'
  | (Throw e, s') => (Throw e, s')
  end.

(** [startReplServer()]; the welcome banner it prints is left out. *)
Definition startReplServer (s : Session Handler Options Value)
  : Completion unit * Session Handler Options Value :=
  let '(srv, g) := start (global s) in
  (Normal (), mkSession (customMethods s) (customMethodsProto s) (Some srv) g).

(** [defineCustomCommands()]: [defineCommand] stores the command under its
    keyword. *)
Definition defineCustomCommands (s : Session Handler Options Value)
  : Completion unit * Session Handler Options Value :=
  match server s with
  | None =>
      (Throw (typeError "Cannot read properties of undefined (reading 'defineCommand')"),
       s)
  | Some srv =>
      (Normal (),
       mkSession (customMethods s) (customMethodsProto s)
         (Some (mkREPLServer
            (<["customApi" := "View a list of available global methods/properties"]>
               (commands srv))))
         (global s))
  end.

(** The [forEach] loop of [registerCustomMethods] over the listed entries:
    each iteration reads [this.server] and assigns the closure
    [(...args) => handler(this, ...args)] to [server.context[methodName]],
    that is to the global object.  The loop ends at the first iteration
    that throws, with the assignments made so far in place. *)
Fixpoint bindEntries (srv : option REPLServer)
    (entries : list (string * (Handler * Options)))
    (ctx : gmap string (Binding Handler Value))
  : Completion unit * gmap string (Binding Handler Value) :=
  match entries with
  | [] => (Normal (), ctx)
  | (methodName, (handler, _)) :: rest =>
      match srv with
      | None =>
          (Throw (typeError "Cannot read properties of undefined (reading 'context')"),
           ctx)
      | Some _ =>
          if readOnlyGlobal methodName
          then (Throw (typeError ("Cannot assign to read only property '"
                                  +:+ methodName +:+ "' of object '#<Object>'")),
                ctx)
          else bindEntries srv rest (<[methodName := BoundMethod handler]> ctx)
      end
  end.

(** [registerCustomMethods()]. *)
Definition registerCustomMethods (s : Session Handler Options Value)
  : Completion unit * Session Handler Options Value :=
  let '(outcome, g) :=
    bindEntries (server s) (objectEntries (customMethods s)) (global s) in
  (outcome, mkSession (customMethods s) (customMethodsProto s) (server s) g).

(** [run()]. *)
Definition run (s : Session Handler Options Value)
  : Completion unit * Session Handler Options Value :=
  andThen startReplServer (andThen registerCustomMethods defineCustomCommands) s.

(** [addMethod(methodName, handler, options)]: the assignment
    [this.customMethods[methodName] = { handler, options }]. *)
Definition addMethod (methodName : string) (handler : Handler) (options : Options)
    (s : Session Handler Options Value) : Session Handler Options Value :=
  if decide (methodName = "__proto__")
  then mkSession (customMethods s) (Some (handler, options)) (server s) (global s)
  else mkSession (setOwn methodName (handler, options) (customMethods s))
                 (customMethodsProto s) (server s) (global s).

(** The entry [this.customMethods[methodName]] evaluates to, when it is
    one: the own entry, or for [__proto__] the prototype an assignment
    installed. *)
Definition getMethod (s : Session Handler Options Value) (methodName : string)
  : option (Handler * Options) :=
  if decide (methodName = "__proto__") then customMethodsProto s
  else getOwn (customMethods s) methodName.

(** [new Repl(tsCompiler)] in a process whose global object is [g]. *)
Definition newRepl (g : gmap string (Binding Handler Value))
  : Session Handler Options Value :=
  mkSession [] None None g.

(** The sessions the class can be in: an object has one entry per key. *)
Definition wellFormed (s : Session Handler Options Value) : Prop :=
  NoDup (fst <$> customMethods s).

End Facade.

End Repl.

(** ** The entry point of the package *)

Module Part001.

Section Main.
Context {Handler Options Value : Type}.
(** The handler [(_, param) => { console.log(param); }] and the options
    [{}] the entry point registers. *)
Variable notify : Handler.
Variable noOptions : Options.
(** [start] of Node's [repl] module. *)
Variable start :
  gmap string (Repl.Binding Handler Value) ->
  Repl.REPLServer * gmap string (Repl.Binding Handler Value).
(** The names that cannot be assigned on the global object. *)
Variable readOnlyGlobal : string -> bool.

(** [new Repl(...)], [repl.addMethod("notify", ...)], [repl.run()], in a
    process whose global object is [g]. *)
Definition main (g : gmap string (Repl.Binding Handler Value))
  : Completion unit * Repl.Session Handler Options Value :=
  Repl.run start readOnlyGlobal
    (Repl.addMethod "notify" notify noOptions (Repl.newRepl g)).
End Main.

End Part001.

(** ** Stand-ins for the collaborators, for the worked examples *)

Module Example.

(** The values the example sandbox produces. *)
Inductive Value : Type :=
  | VUndefined
  | VNumber (n : nat).

(** A handler is named by a number, its options are empty. *)
Definition Handler : Type := nat.
Definition Options : Type := unit.

(** Rewrites [await e] the way [node-repl-await] does, and answers [null]
    for a text with no top-level [await]. *)
Definition processTopLevelAwait (code : string) : option string :=
  if String.prefix "await " code
  then Some ("(async () => { return (" +:+ code +:+ ") })()")
  else None.

(** A compiler that has nothing to down-level. *)
Definition tsCompiler_compile (fileName code : string) : Completion string :=
  Normal code.

(** What V8 does with a handful of inputs. *)
Definition runInThisContext (code : string)
    (ctx : gmap string (Repl.Binding Handler Value))
  : Completion Value * gmap string (Repl.Binding Handler Value) :=
  if decide (code = "const x = 5") then
    match ctx !! "x" with
    | None => (Normal VUndefined, <["x" := Repl.BoundValue (VNumber 5)]> ctx)
    | Some _ =>
        (Throw (errorObject "SyntaxError" "Identifier 'x' has already been declared"), ctx)
    end
  else if decide (code = "x + 1") then
    match ctx !! "x" with
    | Some (Repl.BoundValue (VNumber n)) => (Normal (VNumber (n + 1)), ctx)
    | _ => (Throw (errorObject "ReferenceError" "x is not defined"), ctx)
    end
  else if decide (code = "foo") then
    (Throw (errorObject "ReferenceError" "foo is not defined"), ctx)
  else if decide (code = "function f() {") then
    (Throw (errorObject "SyntaxError" "Unexpected end of input"), ctx)
  else if decide (code = "throw null") then
    (Throw (Prim JsNull), ctx)
  else (Normal VUndefined, ctx).

(** What [start] does in the examples: the server knows the commands Node
    predefines, and [_] and [_error] are defined on the global object. *)
Definition start (g : gmap string (Repl.Binding Handler Value))
  : Repl.REPLServer * gmap string (Repl.Binding Handler Value) :=
  (Repl.mkREPLServer
     (list_to_map
        [("break", "Sometimes you get stuck, this gets you out");
         ("clear", "Alias for .break");
         ("editor", "Enter editor mode");
         ("exit", "Exit the REPL");
         ("help", "Print this help message");
         ("load", "Load JS from a file into the REPL session");
         ("save", "Save all evaluated commands in this REPL session to a file")]),
   <["_" := Repl.BoundValue VUndefined]>
     (<["_error" := Repl.BoundValue VUndefined]> g)).

(** The names every engine keeps read-only on the global object. *)
Definition readOnlyGlobal (name : string) : bool :=
  bool_decide (name ∈ ["NaN"; "Infinity"; "undefined"]).

(** A sandbox that differs from the one above on the raw text [await 42]
    only. *)
Definition runInThisContext' (code : string)
    (ctx : gmap string (Repl.Binding Handler Value))
  : Completion Value * gmap string (Repl.Binding Handler Value) :=
  if decide (code = "await 42")
  then (Throw (errorObject "SyntaxError" "await is only valid in async functions"), ctx)
  else runInThisContext code ctx.

(** A compiler that rejects one ill-typed text with a diagnostic. *)
Definition strictCompiler_compile (fileName code : string) : Completion string :=
  if decide (code = "const n: number = 'a'")
  then Throw (errorObject "TSError"
                "Type 'string' is not assignable to type 'number'.")
  else Normal code.

End Example.

(** ** What the classifier is specified to do *)

(** [s] starts with [p]. *)
Definition startsWith (p s : string) : Prop := exists rest, s = p +:+ rest.

(** The contract of a recoverable-error classifier [f]: it answers [true]
    exactly for a value named [SyntaxError] whose message starts with one of
    the two patterns, and [false] for every other object. *)
Definition classifier_spec (f : JsValue -> Completion bool) : Prop :=
  (forall error,
     f error = Normal true <->
     getProp error "name" = Normal (JsString "SyntaxError") /\
     exists message,
       getProp error "message" = Normal (JsString message) /\
       (startsWith "Unexpected end of input" message \/
        startsWith "Unexpected token" message))
  /\ (forall name message,
     f (errorObject name message) = Normal true <->
     name = "SyntaxError" /\
     (startsWith "Unexpected end of input" message \/
      startsWith "Unexpected token" message))
  /\ (forall props,
     f (Obj props) = Normal true \/ f (Obj props) = Normal false).

(** * Properties *)

(** ** The classifier *)

Lemma prefix_startsWith (p s : string) :
  String.prefix p s = true <-> startsWith p s.
Proof.
  revert s. induction p as [|a p IH]; intros s.
  - split; [intros _; exists s; reflexivity | intros _; destruct s; reflexivity].
  - destruct s as [|b s]; simpl.
    + split; [discriminate | intros [rest H]; discriminate].
    + destruct (Ascii.ascii_dec a b) as [->|Hne].
      * rewrite IH. split.
        -- intros [rest ->]. exists rest. reflexivity.
        -- intros [rest H]. exists rest. simpl in H. injection H as H. exact H.
      * split; [discriminate|]. intros [rest H]. simpl in H.
        injection H as H1 H2. congruence.
Qed.

Lemma unexpectedPattern_test_true (s : string) :
  unexpectedPattern_test s = true <->
  startsWith "Unexpected end of input" s \/ startsWith "Unexpected token" s.
Proof.
  unfold unexpectedPattern_test.
  rewrite orb_true_iff, !prefix_startsWith. reflexivity.
Qed.

Lemma toString_matches (p : JsPrim) :
  unexpectedPattern_test (toString p) = true ->
  exists message, p = JsString message.
Proof.
  destruct p as [| |[|]|message]; simpl; try discriminate.
  intros _. exists message. reflexivity.
Qed.

Lemma strictEqString_true (p : JsPrim) (s : string) :
  strictEqString p s = true <-> p = JsString s.
Proof.
  destruct p as [| |b|t]; simpl; try (split; discriminate).
  rewrite bool_decide_eq_true. split; [intros ->; reflexivity | congruence].
Qed.

(** The classifier never throws on an object: it reads two properties and
    answers the conjunction of the two tests. *)
Lemma isRecoverableError_Obj (props : gmap string JsPrim) :
  Repl.isRecoverableError (Obj props) =
  Normal (strictEqString (default JsUndefined (props !! "name")) "SyntaxError"
          && unexpectedPattern_test (toString (default JsUndefined (props !! "message")))).
Proof.
  unfold Repl.isRecoverableError. simpl.
  destruct (strictEqString _ _); reflexivity.
Qed.

(** On [undefined] and [null] the first property read throws. *)
Lemma isRecoverableError_nullish (error : JsValue) :
  error = Prim JsUndefined \/ error = Prim JsNull ->
  exists e, Repl.isRecoverableError error = Throw e.
Proof.
  intros [-> | ->]; eexists; reflexivity.
Qed.

Lemma isRecoverableError_not_nullish (error : JsValue) :
  error <> Prim JsUndefined -> error <> Prim JsNull ->
  exists b, Repl.isRecoverableError error = Normal b.
Proof.
  intros Hu Hn. destruct error as [[| |b|s]|props]; try congruence.
  - exists false. reflexivity.
  - exists false. reflexivity.
  - eexists. apply isRecoverableError_Obj.
Qed.

Lemma Repl_classifier_spec : classifier_spec Repl.isRecoverableError.
Proof.
  assert (Hgen : forall error,
     Repl.isRecoverableError error = Normal true <->
     getProp error "name" = Normal (JsString "SyntaxError") /\
     exists message,
       getProp error "message" = Normal (JsString message) /\
       (startsWith "Unexpected end of input" message \/
        startsWith "Unexpected token" message)).
  { intros [[| |b|s]|props]; try (split; [discriminate | intros [H _]; discriminate]).
    rewrite isRecoverableError_Obj. simpl.
    split.
    - intros H. injection H as H. apply andb_true_iff in H as [Hname Hmsg].
      apply strictEqString_true in Hname.
      destruct (toString_matches _ Hmsg) as [message Hm].
      rewrite Hname. split; [reflexivity|].
      exists message. rewrite Hm in *. split; [reflexivity|].
      apply unexpectedPattern_test_true. exact Hmsg.
    - intros [Hname [message [Hm Hstarts]]].
      injection Hname as Hname. injection Hm as Hm.
      rewrite Hname, Hm. f_equal. apply andb_true_iff. split.
      + apply strictEqString_true. reflexivity.
      + apply unexpectedPattern_test_true. exact Hstarts. }
  split; [exact Hgen|]. split.
  - intros name message. rewrite Hgen. unfold errorObject. simpl.
    rewrite lookup_insert_eq, lookup_insert_ne, lookup_insert_eq by discriminate.
    simpl. split.
    + intros [Hname [m [Hm Hstarts]]].
      injection Hname as ->. injection Hm as ->. split; [reflexivity | exact Hstarts].
    + intros [-> Hstarts]. split; [reflexivity|]. exists message. split; [reflexivity | exact Hstarts].
  - intros props. rewrite isRecoverableError_Obj.
    destruct (_ && _); [left | right]; reflexivity.
Qed.

(** The draft has the same function body, so the two unfold to the same
    term. *)
Lemma Part000_isRecoverableError_unfold :
  Part000.isRecoverableError = Repl.isRecoverableError.
Proof. reflexivity. Qed.

Lemma Part000_classifier_spec : classifier_spec Part000.isRecoverableError.
Proof.
  rewrite Part000_isRecoverableError_unfold. exact Repl_classifier_spec.
Qed.

(** C2: for every error value, [isRecoverableError] (in [src/Repl.ts] and
    in the draft alike) returns [true] if and only if the name of the error
    is [SyntaxError] and its message starts, case-sensitively, with
    [Unexpected end of input] or [Unexpected token]; for every other pair
    of a name and a message it returns [false]. *)
Theorem isRecoverableError_classifies :
  classifier_spec Repl.isRecoverableError /\
  classifier_spec Part000.isRecoverableError.
Proof.
  split; [exact Repl_classifier_spec | exact Part000_classifier_spec].
Qed.

(** C10: the classifier of [src/Repl.ts] and the classifier of the draft
    are extensionally equal: on every error value both return the same
    boolean, and on [undefined] and [null] both throw the same
    [TypeError]. *)
Theorem isRecoverableError_same_in_both (error : JsValue) :
  Repl.isRecoverableError error = Part000.isRecoverableError error.
Proof.
  unfold Repl.isRecoverableError, Part000.isRecoverableError.
  destruct (getProp error "name") as [name|e]; simpl; [|reflexivity].
  destruct (strictEqString name "SyntaxError"); reflexivity.
Qed.

(** ** The compiler adapter *)

Lemma jsOr_None (code : string) : jsOr None code = code.
Proof. reflexivity. Qed.

Lemma jsOr_Some (rewritten code : string) :
  rewritten <> "" -> jsOr (Some rewritten) code = rewritten.
Proof. destruct rewritten; [congruence | reflexivity]. Qed.

(** C4: for every virtual file name [f] and source text [s], [compile(f, s)]
    first applies the top-level [await] transform to [s] and then calls the
    injected compiler, with the same [f] and the transformed text [t]: the
    rewriting [processTopLevelAwait] answers, or [s] itself when it answers
    [null] or the empty string.  These are its only two calls, in this
    order, and its result is the compiler's. *)
Theorem compile_transforms_then_delegates
    (processTopLevelAwait : string -> option string)
    (tsCompiler_compile : string -> string -> Completion string)
    (f s : string) :
  exists t : string,
    match processTopLevelAwait s with
    | None => t = s
    | Some rewritten => if decide (rewritten = "") then t = s else t = rewritten
    end
    /\ Compiler.compile_logged processTopLevelAwait tsCompiler_compile f s =
       ([Compiler.CallProcessTopLevelAwait s; Compiler.CallTsCompile f t],
        tsCompiler_compile f t)
    /\ Compiler.compile processTopLevelAwait tsCompiler_compile f s =
       tsCompiler_compile f t.
Proof.
  unfold Compiler.compile, Compiler.compile_logged, Compiler.lbind,
    Compiler.call_processTopLevelAwait, Compiler.call_tsCompiler_compile.
  destruct (processTopLevelAwait s) as [[|a rewritten]|] eqn:Hrewritten; simpl.
  - exists s. repeat split.
  - exists (String a rewritten). repeat split.
  - exists s. repeat split.
Qed.

(** The rewriting is what the compiler receives, not the raw text. *)
Example compile_hands_on_the_rewriting :
  Compiler.compile_logged Example.processTopLevelAwait Example.tsCompiler_compile
    "repl" "await 42"
  = ([Compiler.CallProcessTopLevelAwait "await 42";
      Compiler.CallTsCompile "repl" "(async () => { return (await 42) })()"],
     Normal "(async () => { return (await 42) })()").
Proof. reflexivity. Qed.

(** C5: for every input text in which [processTopLevelAwait] finds no
    top-level [await] (it answers [null]), the statement transform returns
    the input unchanged. *)
Theorem transform_without_await
    (processTopLevelAwait : string -> option string) (s : string) :
  processTopLevelAwait s = None ->
  Compiler.transform processTopLevelAwait s = s.
Proof.
  intros Hnone. unfold Compiler.transform. rewrite Hnone. apply jsOr_None.
Qed.

Lemma transform_without_await_witness :
  Example.processTopLevelAwait "1 + 1" = None /\
  Compiler.transform Example.processTopLevelAwait "1 + 1" = "1 + 1".
Proof.
  split; [reflexivity|].
  apply (transform_without_await Example.processTopLevelAwait "1 + 1").
  reflexivity.
Defined.

(** The transform does rewrite a text with a top-level [await]. *)
Example transform_with_await :
  Compiler.transform Example.processTopLevelAwait "await 42" =
  "(async () => { return (await 42) })()".
Proof. reflexivity. Qed.

(** ** The custom method registry *)

Section Registry.
Context {Handler Options Value : Type}.
Implicit Types (s : Repl.Session Handler Options Value).
Implicit Types (g : gmap string (Repl.Binding Handler Value)).
Implicit Types (entries : list (string * (Handler * Options))).

(** [Object.entries] lists every own entry once. *)
Lemma objectEntries_Permutation {V : Type} (props : list (string * V)) :
  Repl.objectEntries props ≡ₚ props.
Proof.
  unfold Repl.objectEntries. rewrite merge_sort_Permutation.
  induction props as [|p props IH]; [reflexivity|]. simpl.
  rewrite filter_cons.
  destruct (decide (Repl.arrayIndex (fst p) = None)) as [Hnone|Hsome].
  - rewrite Hnone. simpl. rewrite <- Permutation_middle, IH. reflexivity.
  - destruct (Repl.arrayIndex (fst p)) as [i|]; [|contradiction].
    simpl. rewrite IH. reflexivity.
Qed.

Lemma getOwn_objectEntries {V : Type} (props : list (string * V)) (key : string) :
  NoDup (fst <$> props) ->
  Repl.getOwn (Repl.objectEntries props) key = Repl.getOwn props key.
Proof.
  intros Hnodup. unfold Repl.getOwn.
  rewrite (list_to_map_proper (Repl.objectEntries props) props);
    [reflexivity | | apply objectEntries_Permutation].
  rewrite objectEntries_Permutation. exact Hnodup.
Qed.

Lemma getOwn_setOwn_eq {V : Type} (key : string) (v : V) (props : list (string * V)) :
  Repl.getOwn (Repl.setOwn key v props) key = Some v.
Proof.
  unfold Repl.getOwn. induction props as [|[key' v'] props IH]; simpl.
  - apply lookup_insert_eq.
  - destruct (decide (key' = key)) as [->|Hne]; simpl.
    + apply lookup_insert_eq.
    + rewrite lookup_insert_ne by exact Hne. exact IH.
Qed.


Lemma setOwn_setOwn {V : Type} (key : string) (v1 v2 : V) (props : list (string * V)) :
  Repl.setOwn key v2 (Repl.setOwn key v1 props) = Repl.setOwn key v2 props.
Proof.
  induction props as [|[key' v'] props IH]; simpl.
  - destruct (decide (key = key)); [reflexivity | contradiction].
  - destruct (decide (key' = key)) as [->|Hne]; simpl.
    + destruct (decide (key = key)); [reflexivity | contradiction].
    + destruct (decide (key' = key)); [contradiction|]. rewrite IH. reflexivity.
Qed.

Lemma elem_of_keys_setOwn {V : Type} (key : string) (v : V)
    (props : list (string * V)) (k : string) :
  k ∈ fst <$> Repl.setOwn key v props <-> k = key \/ k ∈ fst <$> props.
Proof.
  induction props as [|[key' v'] props IH]; simpl.
  - rewrite list_elem_of_singleton. split; [auto | intros [H|H]; [exact H|]].
    apply elem_of_nil in H. contradiction.
  - destruct (decide (key' = key)) as [->|Hne]; simpl.
    + rewrite !elem_of_cons. tauto.
    + rewrite !elem_of_cons, IH. tauto.
Qed.

Lemma NoDup_setOwn {V : Type} (key : string) (v : V) (props : list (string * V)) :
  NoDup (fst <$> props) -> NoDup (fst <$> Repl.setOwn key v props).
Proof.
  induction props as [|[key' v'] props IH]; simpl; intros Hnodup.
  - apply NoDup_singleton.
  - apply NoDup_cons in Hnodup as [Hnotin Hnodup].
    destruct (decide (key' = key)) as [->|Hne]; simpl.
    + apply NoDup_cons. split; assumption.
    + apply NoDup_cons. split; [|apply IH; exact Hnodup].
      rewrite elem_of_keys_setOwn. intros [H|H]; [congruence | contradiction].
Qed.

Lemma filter_key_absent {V : Type} (key : string) (props : list (string * V)) :
  key ∉ fst <$> props -> filter (fun p => fst p = key) props = [].
Proof.
  induction props as [|[key' v'] props IH]; simpl; intros Hnotin; [reflexivity|].
  apply not_elem_of_cons in Hnotin as [Hne Hnotin].
  rewrite filter_cons_False by (simpl; congruence). apply IH. exact Hnotin.
Qed.

(** After a registration the registry lists one entry under the key. *)
Lemma filter_key_setOwn {V : Type} (key : string) (v : V) (props : list (string * V)) :
  NoDup (fst <$> props) ->
  filter (fun p => fst p = key) (Repl.setOwn key v props) = [(key, v)].
Proof.
  induction props as [|[key' v'] props IH]; simpl; intros Hnodup.
  - rewrite filter_cons. simpl.
    destruct (decide (key = key)); [reflexivity | contradiction].
  - apply NoDup_cons in Hnodup as [Hnotin Hnodup].
    destruct (decide (key' = key)) as [->|Hne].
    + rewrite filter_cons. simpl.
      destruct (decide (key = key)); [|contradiction]. f_equal.
      apply filter_key_absent. exact Hnotin.
    + rewrite filter_cons. simpl.
      destruct (decide (key' = key)); [contradiction|]. apply IH. exact Hnodup.
Qed.

Lemma typeError_name (message : string) :
  getProp (typeError message) "name" = Normal (JsString "TypeError").
Proof.
  unfold typeError, errorObject. simpl. rewrite lookup_insert_eq. reflexivity.
Qed.

Section Run.
Variable readOnlyGlobal : string -> bool.
Variable start :
  gmap string (Repl.Binding Handler Value) ->
  Repl.REPLServer * gmap string (Repl.Binding Handler Value).

(** The loop that ends normally has made every assignment: each listed key
    is bound to the closure over its handler, every other name keeps its
    binding. *)
Lemma bindEntries_Normal_lookup srv entries g g' (n : string) :
  Repl.bindEntries readOnlyGlobal srv entries g = (Normal (), g') ->
  NoDup (fst <$> entries) ->
  g' !! n =
  match Repl.getOwn entries n with
  | Some entry => Some (Repl.BoundMethod (fst entry))
  | None => g !! n
  end.
Proof.
  unfold Repl.getOwn. revert g.
  induction entries as [|[k [h o]] entries IH]; intros g Hrun Hnodup; simpl in *.
  - injection Hrun as <-. rewrite lookup_empty. reflexivity.
  - apply NoDup_cons in Hnodup as [Hnotin Hnodup].
    destruct srv as [srv|]; [|discriminate].
    destruct (readOnlyGlobal k); [discriminate|].
    rewrite (IH _ Hrun Hnodup).
    destruct (decide (k = n)) as [->|Hne].
    + rewrite lookup_insert_eq.
      rewrite (not_elem_of_list_to_map_1 entries n Hnotin), lookup_insert_eq.
      reflexivity.
    + rewrite !lookup_insert_ne by exact Hne. reflexivity.
Qed.

(** With a server and no read-only name among the keys no iteration throws. *)
Lemma bindEntries_Normal (srv : Repl.REPLServer) entries g :
  Forall (fun k => readOnlyGlobal k = false) (fst <$> entries) ->
  exists g', Repl.bindEntries readOnlyGlobal (Some srv) entries g = (Normal (), g').
Proof.
  revert g. induction entries as [|[k [h o]] entries IH]; intros g Hwritable; simpl.
  - eexists. reflexivity.
  - apply Forall_cons in Hwritable as [Hk Hwritable]. simpl in Hk.
    rewrite Hk. apply IH. exact Hwritable.
Qed.



(** [run()] step by step: the server is started, the loop runs over the
    listed registry, and the command is defined when the loop has ended
    normally. *)
Lemma run_unfold s :
  Repl.run start readOnlyGlobal s =
  match Repl.bindEntries readOnlyGlobal (Some (fst (start (Repl.global s))))
          (Repl.objectEntries (Repl.customMethods s))
          (snd (start (Repl.global s))) with
  | (Normal _, g') =>
      (Normal (),
       Repl.mkSession (Repl.customMethods s) (Repl.customMethodsProto s)
         (Some (Repl.mkREPLServer
            (<["customApi" := "View a list of available global methods/properties"]>
               (Repl.commands (fst (start (Repl.global s)))))))
         g')
  | (Throw e, g') =>
      (Throw e,
       Repl.mkSession (Repl.customMethods s) (Repl.customMethodsProto s)
         (Some (fst (start (Repl.global s)))) g')
  end.
Proof.
  unfold Repl.run, Repl.andThen, Repl.startReplServer, Repl.registerCustomMethods.
  destruct (start (Repl.global s)) as [srv g]. simpl.
  destruct (Repl.bindEntries readOnlyGlobal (Some srv) _ g) as [[[]|e] g']; reflexivity.
Qed.

Lemma run_Normal_inv s s' :
  Repl.run start readOnlyGlobal s = (Normal (), s') ->
  Repl.customMethods s' = Repl.customMethods s /\
  Repl.bindEntries readOnlyGlobal (Some (fst (start (Repl.global s))))
    (Repl.objectEntries (Repl.customMethods s)) (snd (start (Repl.global s)))
  = (Normal (), Repl.global s').
Proof.
  rewrite run_unfold.
  destruct (Repl.bindEntries readOnlyGlobal _ _ _) as [[[]|e] g']; [|discriminate].
  intros [= <-]. split; reflexivity.
Qed.

(** What a [run()] that ends normally leaves in the global object. *)
Lemma run_Normal_lookup s s' (n : string) :
  Repl.wellFormed s ->
  Repl.run start readOnlyGlobal s = (Normal (), s') ->
  Repl.global s' !! n =
  match Repl.getOwn (Repl.customMethods s) n with
  | Some entry => Some (Repl.BoundMethod (fst entry))
  | None => snd (start (Repl.global s)) !! n
  end.
Proof.
  intros Hwf Hrun. destruct (run_Normal_inv _ _ Hrun) as [_ Hloop].
  rewrite (bindEntries_Normal_lookup _ _ _ _ n Hloop).
  - rewrite (getOwn_objectEntries _ _ Hwf). reflexivity.
  - rewrite objectEntries_Permutation. exact Hwf.
Qed.

(** [run()] ends normally when no registered name is read-only. *)
Lemma run_Normal s :
  Forall (fun k => readOnlyGlobal k = false) (fst <$> Repl.customMethods s) ->
  exists s', Repl.run start readOnlyGlobal s = (Normal (), s').
Proof.
  intros Hwritable. rewrite run_unfold.
  destruct (bindEntries_Normal (fst (start (Repl.global s)))
              (Repl.objectEntries (Repl.customMethods s))
              (snd (start (Repl.global s)))) as [g' ->].
  - rewrite objectEntries_Permutation. exact Hwritable.
  - eexists. reflexivity.
Qed.

End Run.

Lemma wellFormed_newRepl g :
  Repl.wellFormed (Repl.newRepl (Handler := Handler) (Options := Options) g).
Proof. apply NoDup_nil_2. Qed.

Lemma wellFormed_addMethod (n : string) (h : Handler) (o : Options) s :
  Repl.wellFormed s -> Repl.wellFormed (Repl.addMethod n h o s).
Proof.
  unfold Repl.wellFormed, Repl.addMethod. intros Hwf.
  destruct (decide (n = "__proto__")); simpl; [exact Hwf|].
  apply NoDup_setOwn. exact Hwf.
Qed.

Lemma getMethod_addMethod_eq (n : string) (h : Handler) (o : Options) s :
  Repl.getMethod (Repl.addMethod n h o s) n = Some (h, o).
Proof.
  unfold Repl.getMethod, Repl.addMethod.
  destruct (decide (n = "__proto__")); simpl; [reflexivity|].
  apply getOwn_setOwn_eq.
Qed.


End Registry.




(** C8: for every method name [n], after [addMethod(n, h1, o1)] followed by
    [addMethod(n, h2, o2)] the registry holds exactly [(h2, o2)] for [n]:
    [customMethods[n]] is that entry, the session is the one a single
    registration of [(h2, o2)] gives, and [Object.entries] lists one entry
    under [n], the second one (under [__proto__] the second assignment
    replaces the prototype the first one installed, and no entry is
    listed).  [addMethod] has no failing path. *)
Theorem addMethod_last_write_wins {Handler Options Value : Type}
    (n : string) (h1 h2 : Handler) (o1 o2 : Options)
    (s : Repl.Session Handler Options Value) :
  Repl.getMethod (Repl.addMethod n h2 o2 (Repl.addMethod n h1 o1 s)) n
    = Some (h2, o2)
  /\ Repl.addMethod n h2 o2 (Repl.addMethod n h1 o1 s) = Repl.addMethod n h2 o2 s
  /\ (n <> "__proto__" -> Repl.wellFormed s ->
      filter (fun entry => fst entry = n)
        (Repl.objectEntries
           (Repl.customMethods (Repl.addMethod n h2 o2 (Repl.addMethod n h1 o1 s))))
      = [(n, (h2, o2))])
  /\ (n = "__proto__" ->
      Repl.customMethods (Repl.addMethod n h2 o2 (Repl.addMethod n h1 o1 s))
      = Repl.customMethods s).
Proof.
  split; [apply getMethod_addMethod_eq|].
  assert (Honce : Repl.addMethod n h2 o2 (Repl.addMethod n h1 o1 s)
                  = Repl.addMethod n h2 o2 s).
  { unfold Repl.addMethod. destruct (decide (n = "__proto__")); simpl; [reflexivity|].
    rewrite setOwn_setOwn. reflexivity. }
  split; [exact Honce|]. rewrite Honce. split.
  - intros Hn Hwf. unfold Repl.addMethod.
    destruct (decide (n = "__proto__")); [contradiction|]. simpl.
    apply Permutation_singleton_r.
    rewrite objectEntries_Permutation, (filter_key_setOwn n (h2, o2) _ Hwf).
    reflexivity.
  - intros ->. reflexivity.
Qed.

Lemma addMethod_last_write_wins_witness :
  filter (fun entry => fst entry = "notify")
    (Repl.objectEntries
       (Repl.customMethods
          (Repl.addMethod "notify" 2 tt
             (Repl.addMethod "notify" 1 tt
                (Repl.newRepl (Handler := Example.Handler) (Options := Example.Options)
                   (Value := Example.Value) ∅)))))
  = [("notify", (2, tt))].
Proof.
  destruct (addMethod_last_write_wins "notify" 1 2 tt tt
              (Repl.newRepl (Handler := Example.Handler) (Options := Example.Options)
                 (Value := Example.Value) ∅))
    as (_ & _ & Hlisted & _).
  apply Hlisted; [discriminate | apply wellFormed_newRepl].
Defined.

(** ** The evaluation function of [src/Repl.ts] *)

Section Evaluation.
Context {Handler Options Value : Type}.
Variable processTopLevelAwait : string -> option string.
Variable tsCompiler_compile : string -> string -> Completion string.
Variable runInThisContext :
  string -> gmap string (Repl.Binding Handler Value) ->
  Completion Value * gmap string (Repl.Binding Handler Value).
Implicit Types (ctx : gmap string (Repl.Binding Handler Value)).

Local Abbreviation compile :=
  (Compiler.compile processTopLevelAwait tsCompiler_compile).
Local Abbreviation evaluateCode :=
  (Repl.evaluateCode processTopLevelAwait tsCompiler_compile runInThisContext).
Local Abbreviation runTurns :=
  (Repl.runTurns processTopLevelAwait tsCompiler_compile runInThisContext).
Local Abbreviation contextAt :=
  (Repl.contextAt processTopLevelAwait tsCompiler_compile runInThisContext).
Local Abbreviation caught :=
  (Repl.caught processTopLevelAwait tsCompiler_compile runInThisContext).

Lemma evaluateCode_caught code fileName ctx error ctx' :
  caught code fileName ctx error ctx' ->
  evaluateCode code fileName ctx = Repl.onCaught error ctx'.
Proof.
  unfold Repl.evaluateCode.
  intros [[-> ->] | (compiledCode & -> & ->)]; reflexivity.
Qed.

Lemma evaluateCode_produced code fileName ctx compiledCode result ctx' :
  compile fileName code = Normal compiledCode ->
  runInThisContext compiledCode ctx = (Normal result, ctx') ->
  evaluateCode code fileName ctx = mkEvaluation [(ErrNull, ResValue result)] None ctx'.
Proof. unfold Repl.evaluateCode. intros -> ->. reflexivity. Qed.

(** A turn either produces a value or reaches the [catch] clause. *)
Lemma evaluateCode_cases code fileName ctx :
  (exists compiledCode result ctx',
     compile fileName code = Normal compiledCode /\
     runInThisContext compiledCode ctx = (Normal result, ctx'))
  \/ exists error ctx', caught code fileName ctx error ctx'.
Proof.
  unfold Repl.caught. destruct (compile fileName code) as [compiledCode|error] eqn:Hc.
  - destruct (runInThisContext compiledCode ctx) as [[result|error] ctx'] eqn:Hr.
    + left. eauto.
    + right. exists error, ctx'. right. eauto.
  - right. exists error, ctx. left. auto.
Qed.

(** The protocol on a caught value the classifier can classify: a
    recoverable one is handed over wrapped in [Recoverable], any other one
    as it is, and nothing leaves the function. *)
Lemma evaluateCode_reports_caught code fileName ctx error ctx' (b : bool) :
  caught code fileName ctx error ctx' ->
  Repl.isRecoverableError error = Normal b ->
  evaluateCode code fileName ctx =
  mkEvaluation [(if b then ErrRecoverable error else ErrValue error, ResNull)] None ctx'.
Proof.
  intros Hcaught Hb. rewrite (evaluateCode_caught _ _ _ _ _ Hcaught).
  unfold Repl.onCaught. rewrite Hb. destruct b; reflexivity.
Qed.

(** When the caught value is [undefined] or [null] the classifier itself
    throws inside the [catch] clause: the callback is not called and the
    [TypeError] leaves the function. *)
Lemma evaluateCode_nullish_escapes code fileName ctx error ctx' :
  caught code fileName ctx error ctx' ->
  error = Prim JsUndefined \/ error = Prim JsNull ->
  calls (evaluateCode code fileName ctx) = [] /\
  exists e, escaped (evaluateCode code fileName ctx) = Some e.
Proof.
  intros Hcaught Hnull. rewrite (evaluateCode_caught _ _ _ _ _ Hcaught).
  destruct Hnull as [-> | ->]; (split; [reflexivity | eexists; reflexivity]).
Qed.

(** Apart from that case the callback is called exactly once. *)
Lemma evaluateCode_calls_once code fileName ctx :
  (forall error ctx', caught code fileName ctx error ctx' ->
     error <> Prim JsUndefined /\ error <> Prim JsNull) ->
  length (calls (evaluateCode code fileName ctx)) = 1 /\
  escaped (evaluateCode code fileName ctx) = None.
Proof.
  intros Hobj.
  destruct (evaluateCode_cases code fileName ctx)
    as [(compiledCode & result & ctx' & Hc & Hr) | (error & ctx' & Hcaught)].
  - rewrite (evaluateCode_produced _ _ _ _ _ _ Hc Hr). split; reflexivity.
  - destruct (Hobj _ _ Hcaught) as [Hu Hn].
    destruct (isRecoverableError_not_nullish error Hu Hn) as [b Hb].
    rewrite (evaluateCode_reports_caught _ _ _ _ _ _ Hcaught Hb). split; reflexivity.
Qed.

(** The only change a turn makes to the execution context is the one the
    executed code makes. *)
Lemma onCaught_context error ctx : context (Repl.onCaught error ctx) = ctx.
Proof.
  unfold Repl.onCaught.
  destruct (Repl.isRecoverableError error) as [[|]|e]; reflexivity.
Qed.

Lemma evaluateCode_context code fileName ctx :
  context (evaluateCode code fileName ctx) =
  match compile fileName code with
  | Normal compiledCode => snd (runInThisContext compiledCode ctx)
  | Throw _ => ctx
  end.
Proof.
  unfold Repl.evaluateCode. destruct (compile fileName code) as [compiledCode|error].
  - destruct (runInThisContext compiledCode ctx) as [[result|error] ctx']; simpl;
      [reflexivity | apply onCaught_context].
  - apply onCaught_context.
Qed.

Lemma runTurns_app fileName (codes1 codes2 : list string) ctx :
  runTurns fileName (codes1 ++ codes2)%list ctx =
  ((fst (runTurns fileName codes1 ctx)
      ++ fst (runTurns fileName codes2 (snd (runTurns fileName codes1 ctx))))%list,
   snd (runTurns fileName codes2 (snd (runTurns fileName codes1 ctx)))).
Proof.
  revert ctx. induction codes1 as [|code rest IH]; intros ctx; simpl.
  - destruct (runTurns fileName codes2 ctx). reflexivity.
  - rewrite IH.
    destruct (runTurns fileName rest (context (evaluateCode code fileName ctx))).
    reflexivity.
Qed.

Lemma contextAt_0 fileName (codes : list string) ctx :
  contextAt fileName codes ctx 0 = ctx.
Proof. unfold Repl.contextAt. rewrite take_0. reflexivity. Qed.

Lemma contextAt_S fileName (codes : list string) ctx (n : nat) (code : string) :
  codes !! n = Some code ->
  contextAt fileName codes ctx (S n) =
  context (evaluateCode code fileName (contextAt fileName codes ctx n)).
Proof.
  intros Hn. unfold Repl.contextAt.
  rewrite (take_S_r _ _ _ Hn), runTurns_app. simpl.
  destruct (runTurns fileName (take n codes) ctx). reflexivity.
Qed.

Lemma contextAt_past_end fileName (codes : list string) ctx (n : nat) :
  codes !! n = None ->
  contextAt fileName codes ctx (S n) = contextAt fileName codes ctx n.
Proof.
  intros Hn. unfold Repl.contextAt. apply lookup_ge_None in Hn.
  rewrite !take_ge by lia. reflexivity.
Qed.

(** Whatever the executed code keeps true of the context stays true from
    one turn to the next. *)
Lemma contextAt_invariant (P : gmap string (Repl.Binding Handler Value) -> Prop)
    fileName (codes : list string) ctx (n m : nat) :
  (forall compiledCode g, P g -> P (snd (runInThisContext compiledCode g))) ->
  n <= m ->
  P (contextAt fileName codes ctx n) -> P (contextAt fileName codes ctx m).
Proof.
  intros Hkeep Hle Hn. induction Hle as [|m Hle IH]; [exact Hn|].
  destruct (codes !! m) as [code|] eqn:Hm.
  - rewrite (contextAt_S _ _ _ _ _ Hm), evaluateCode_context.
    destruct (compile fileName code); [apply Hkeep|]; exact IH.
  - rewrite (contextAt_past_end _ _ _ _ Hm). exact IH.
Qed.

(** C3: the execution context is never replaced or cleared between turns.
    The context a turn leaves is the one its executed code left (the one it
    received when the compile step failed), the next turn starts from
    exactly that context, and so a binding introduced in turn [n] that the
    executed code itself keeps is visible to every later turn. *)
Theorem context_persists_across_turns
    (fileName : string) (codes : list string) ctx :
  (forall code g,
     context (evaluateCode code fileName g) =
     match compile fileName code with
     | Normal compiledCode => snd (runInThisContext compiledCode g)
     | Throw _ => g
     end)
  /\ contextAt fileName codes ctx 0 = ctx
  /\ (forall n code, codes !! n = Some code ->
        contextAt fileName codes ctx (S n) =
        context (evaluateCode code fileName (contextAt fileName codes ctx n)))
  /\ (forall (k : string) (b : Repl.Binding Handler Value),
        (forall compiledCode g,
           g !! k = Some b -> snd (runInThisContext compiledCode g) !! k = Some b) ->
        forall n m, n <= m ->
          contextAt fileName codes ctx n !! k = Some b ->
          contextAt fileName codes ctx m !! k = Some b).
Proof.
  split; [intros; apply evaluateCode_context|].
  split; [apply contextAt_0|].
  split; [intros; apply contextAt_S; assumption|].
  intros k b Hkeep n m Hle Hn.
  apply (contextAt_invariant (fun g => g !! k = Some b) fileName codes ctx n m);
    assumption.
Qed.

End Evaluation.

Lemma context_persists_across_turns_witness :
  Repl.contextAt Example.processTopLevelAwait Example.tsCompiler_compile
    Example.runInThisContext "repl" ["const x = 5"; "x + 1"; "foo"] ∅ 3 !! "x"
  = Some (Repl.BoundValue (Example.VNumber 5)).
Proof.
  destruct (context_persists_across_turns
              Example.processTopLevelAwait Example.tsCompiler_compile
              Example.runInThisContext "repl" ["const x = 5"; "x + 1"; "foo"] ∅)
    as (_ & _ & _ & Hpersists).
  apply (Hpersists "x" (Repl.BoundValue (Example.VNumber 5))) with (n := 1).
  - intros compiledCode g Hx. unfold Example.runInThisContext.
    repeat case_decide; try rewrite Hx; simpl; exact Hx.
  - lia.
  - vm_compute. reflexivity.
Defined.

(** The second turn sees the binding of the first one: [const x = 5], then
    [x + 1], yields [6]. *)
Example second_turn_reads_first_turn :
  calls <$> fst (Repl.runTurns Example.processTopLevelAwait Example.tsCompiler_compile
                   Example.runInThisContext "repl" ["const x = 5"; "x + 1"] ∅)
  = [ [(ErrNull, ResValue Example.VUndefined)];
      [(ErrNull, ResValue (Example.VNumber 6))] ].
Proof. vm_compute. reflexivity. Qed.

(** An incomplete block is reported as recoverable. *)
Example incomplete_block_is_recoverable :
  calls (Repl.evaluateCode Example.processTopLevelAwait Example.tsCompiler_compile
           Example.runInThisContext "function f() {" "repl" ∅)
  = [(ErrRecoverable (errorObject "SyntaxError" "Unexpected end of input"), ResNull)].
Proof. vm_compute. reflexivity. Qed.

(** ** The evaluation function of the draft *)

Section Draft.
Context {Value Ctx : Type}.
Variable runInThisContext : string -> Ctx -> Completion Value * Ctx.

Lemma draft_evaluateCode_produced code ctx result ctx' :
  runInThisContext code ctx = (Normal result, ctx') ->
  Part000.evaluateCode runInThisContext code ctx =
  mkEvaluation [(ErrNull, ResValue result)] None ctx'.
Proof. unfold Part000.evaluateCode. intros ->. reflexivity. Qed.

Lemma draft_evaluateCode_recoverable code ctx error ctx' :
  runInThisContext code ctx = (Throw error, ctx') ->
  Part000.isRecoverableError error = Normal true ->
  Part000.evaluateCode runInThisContext code ctx =
  mkEvaluation [(ErrRecoverable error, ResUndefined)] None ctx'.
Proof. unfold Part000.evaluateCode. intros -> ->. reflexivity. Qed.

(** A caught value that is not recoverable is dropped: the callback is told
    the turn succeeded with no result. *)
Lemma draft_evaluateCode_terminal code ctx error ctx' :
  runInThisContext code ctx = (Throw error, ctx') ->
  Part000.isRecoverableError error = Normal false ->
  Part000.evaluateCode runInThisContext code ctx =
  mkEvaluation [(ErrNull, ResUndefined)] None ctx'.
Proof. unfold Part000.evaluateCode. intros -> ->. reflexivity. Qed.

(** With a caught value other than [undefined] and [null], and with a
    produced value, the draft calls back exactly once too. *)
Lemma draft_evaluateCode_calls_once code ctx :
  (forall error ctx', runInThisContext code ctx = (Throw error, ctx') ->
     error <> Prim JsUndefined /\ error <> Prim JsNull) ->
  length (calls (Part000.evaluateCode runInThisContext code ctx)) = 1 /\
  escaped (Part000.evaluateCode runInThisContext code ctx) = None.
Proof.
  intros Hobj.
  destruct (runInThisContext code ctx) as [[result|error] ctx'] eqn:Hrun.
  - rewrite (draft_evaluateCode_produced _ _ _ _ Hrun). split; reflexivity.
  - destruct (Hobj error ctx' eq_refl) as [Hu Hn].
    destruct (isRecoverableError_not_nullish error Hu Hn) as [b Hb].
    rewrite <- Part000_isRecoverableError_unfold in Hb. destruct b.
    + rewrite (draft_evaluateCode_recoverable _ _ _ _ Hrun Hb). split; reflexivity.
    + rewrite (draft_evaluateCode_terminal _ _ _ _ Hrun Hb). split; reflexivity.
Qed.

End Draft.

(** C1, at the input [foo] (an unbound name, so the execution throws a
    [ReferenceError], which is not recoverable): the evaluation function of
    the draft calls back with no error and no result, where the one of
    [src/Repl.ts] hands the error over as the protocol requires. *)
Theorem draft_reports_terminal_error_as_success :
  Part000.evaluateCode Example.runInThisContext "foo" ∅
    = mkEvaluation [(ErrNull, ResUndefined)] None ∅
  /\ Repl.evaluateCode Example.processTopLevelAwait Example.tsCompiler_compile
       Example.runInThisContext "foo" "repl" ∅
    = mkEvaluation
        [(ErrValue (errorObject "ReferenceError" "foo is not defined"), ResNull)]
        None ∅.
Proof. split; vm_compute; reflexivity. Qed.

(** C9, at the input [throw null]: the caught value is [null], reading its
    [name] inside the [catch] clause throws, and the evaluation function
    (of [src/Repl.ts] and of the draft alike) ends without a single call of
    the callback; the [TypeError] leaves it instead. *)
Theorem throw_null_never_reaches_callback :
  Repl.evaluateCode Example.processTopLevelAwait Example.tsCompiler_compile
    Example.runInThisContext "throw null" "repl" ∅
    = mkEvaluation []
        (Some (typeError "Cannot read properties of null (reading 'name')")) ∅
  /\ Part000.evaluateCode Example.runInThisContext "throw null" ∅
    = mkEvaluation []
        (Some (typeError "Cannot read properties of null (reading 'name')")) ∅.
Proof. split; vm_compute; reflexivity. Qed.

(** * Further properties of the code *)

(** ** [run], [registerCustomMethods] and [addMethod] *)



(** X2: when [run()] ends normally, the context it leaves does not depend
    on the order in which [Object.entries] lists the registry: the
    [forEach] loop over any listing of the entries gives the same context. *)
Theorem registerCustomMethods_order_irrelevant {Handler Options Value : Type}
    (start : gmap string (Repl.Binding Handler Value) ->
             Repl.REPLServer * gmap string (Repl.Binding Handler Value))
    (readOnlyGlobal : string -> bool)
    (entries : list (string * (Handler * Options)))
    (s s' : Repl.Session Handler Options Value) :
  Repl.wellFormed s ->
  entries ≡ₚ Repl.customMethods s ->
  Repl.run start readOnlyGlobal s = (Normal (), s') ->
  Repl.bindEntries readOnlyGlobal (Repl.server s') entries (snd (start (Repl.global s)))
  = (Normal (), Repl.global s').
Proof.
  intros Hwf Hperm Hrun.
  assert (Hnodup : NoDup (fst <$> entries)) by (rewrite Hperm; exact Hwf).
  assert (Hserver : exists srv, Repl.server s' = Some srv).
  { rewrite run_unfold in Hrun.
    destruct (Repl.bindEntries readOnlyGlobal _ _ _) as [[[]|e] g']; [|discriminate].
    injection Hrun as <-. eexists. reflexivity. }
  destruct Hserver as [srv ->].
  assert (Hwritable : Forall (fun k => readOnlyGlobal k = false) (fst <$> entries)).
  { destruct (run_Normal_inv readOnlyGlobal start s s' Hrun) as [_ Hloop].
    rewrite Hperm, <- (objectEntries_Permutation (Repl.customMethods s)).
    clear -Hloop. revert Hloop.
    generalize (snd (start (Repl.global s))) as g.
    generalize (Repl.objectEntries (Repl.customMethods s)) as listed.
    induction listed as [|[k [h o]] listed IH]; intros g Hloop; simpl in *.
    - constructor.
    - destruct (readOnlyGlobal k) eqn:Hk; [discriminate|].
      constructor; [exact Hk | exact (IH _ Hloop)]. }
  destruct (bindEntries_Normal readOnlyGlobal srv entries (snd (start (Repl.global s))) Hwritable)
    as [g' Hloop'].
  rewrite Hloop'. f_equal. apply map_eq. intros n.
  rewrite (bindEntries_Normal_lookup _ _ _ _ _ n Hloop' Hnodup).
  rewrite (run_Normal_lookup readOnlyGlobal start s s' n Hwf Hrun).
  unfold Repl.getOwn. rewrite (list_to_map_proper _ _ Hnodup Hperm). reflexivity.
Qed.

Lemma registerCustomMethods_order_irrelevant_witness :
  Repl.bindEntries Example.readOnlyGlobal
    (Repl.server
       (snd (Repl.run Example.start Example.readOnlyGlobal
               (Repl.addMethod "1" 2 tt (Repl.addMethod "notify" 1 tt
                  (Repl.newRepl (Value := Example.Value) ∅))))))
    [("notify", (1, tt)); ("1", (2, tt))]
    (snd (Example.start ∅))
  = (Normal (),
     Repl.global
       (snd (Repl.run Example.start Example.readOnlyGlobal
               (Repl.addMethod "1" 2 tt (Repl.addMethod "notify" 1 tt
                  (Repl.newRepl (Value := Example.Value) ∅)))))).
Proof.
  apply (registerCustomMethods_order_irrelevant Example.start Example.readOnlyGlobal
           [("notify", (1, tt)); ("1", (2, tt))]
           (Repl.addMethod "1" 2 tt (Repl.addMethod "notify" 1 tt
              (Repl.newRepl (Value := Example.Value) ∅)))).
  - repeat apply wellFormed_addMethod. apply wellFormed_newRepl.
  - reflexivity.
  - reflexivity.
Defined.



(** X4: where [notify] can be assigned on the global object, the entry
    point of the package ends normally; it binds [notify] to the closure
    over the handler it registers, its registry holds that one entry, and
    every other name of the global object is as [start] left it. *)
Theorem main_binds_only_notify {Handler Options Value : Type}
    (notify : Handler) (noOptions : Options)
    (start : gmap string (Repl.Binding Handler Value) ->
             Repl.REPLServer * gmap string (Repl.Binding Handler Value))
    (readOnlyGlobal : string -> bool)
    (g : gmap string (Repl.Binding Handler Value)) :
  readOnlyGlobal "notify" = false ->
  exists s,
    Part001.main notify noOptions start readOnlyGlobal g = (Normal (), s) /\
    Repl.global s !! "notify" = Some (Repl.BoundMethod notify) /\
    Repl.customMethods s = [("notify", (notify, noOptions))] /\
    forall n : string, n <> "notify" -> Repl.global s !! n = snd (start g) !! n.
Proof.
  intros Hnotify. unfold Part001.main.
  destruct (run_Normal readOnlyGlobal start
              (Repl.addMethod "notify" notify noOptions
                 (Repl.newRepl (Value := Value) g))) as [s Hrun].
  { repeat constructor. exact Hnotify. }
  exists s. split; [exact Hrun|].
  assert (Hwf : Repl.wellFormed
                  (Repl.addMethod "notify" notify noOptions
                     (Repl.newRepl (Value := Value) g)))
    by apply wellFormed_addMethod, wellFormed_newRepl.
  split; [|split].
  - rewrite (run_Normal_lookup readOnlyGlobal start _ _ "notify" Hwf Hrun). reflexivity.
  - apply (run_Normal_inv readOnlyGlobal start _ _ Hrun).
  - intros n Hn. rewrite (run_Normal_lookup readOnlyGlobal start _ _ n Hwf Hrun).
    unfold Repl.getOwn. simpl. rewrite lookup_insert_ne by congruence.
    rewrite lookup_empty. reflexivity.
Qed.

Lemma main_binds_only_notify_witness :
  exists s : Repl.Session Example.Handler Example.Options Example.Value,
    Part001.main 1 tt Example.start Example.readOnlyGlobal ∅ = (Normal (), s) /\
    Repl.global s !! "notify" = Some (Repl.BoundMethod 1) /\
    Repl.customMethods s = [("notify", (1, tt))] /\
    forall n : string, n <> "notify" -> Repl.global s !! n = snd (Example.start ∅) !! n.
Proof.
  apply (main_binds_only_notify 1 tt Example.start Example.readOnlyGlobal ∅).
  reflexivity.
Defined.

(** X5: [registerCustomMethods] reads [this.server] inside the loop only:
    on a session whose server was never started it returns normally and
    changes nothing when the registry is empty, and throws a [TypeError],
    again changing nothing, as soon as the registry lists an entry. *)
Theorem registerCustomMethods_reads_server_per_entry
    {Handler Options Value : Type} (readOnlyGlobal : string -> bool)
    (s : Repl.Session Handler Options Value) :
  Repl.server s = None ->
  (Repl.customMethods s = [] ->
   Repl.registerCustomMethods readOnlyGlobal s = (Normal (), s))
  /\ (Repl.customMethods s <> [] ->
      exists e, Repl.registerCustomMethods readOnlyGlobal s = (Throw e, s)
                /\ getProp e "name" = Normal (JsString "TypeError")).
Proof.
  intros Hserver. destruct s as [methods proto srv g]. simpl in *. subst srv.
  unfold Repl.registerCustomMethods. simpl. split.
  - intros ->. reflexivity.
  - intros Hentries.
    destruct (Repl.objectEntries methods) as [|[k [h o]] listed] eqn:Hlisted.
    + exfalso. apply Hentries. apply Permutation_nil_r.
      rewrite <- Hlisted. symmetry. apply objectEntries_Permutation.
    + simpl. eexists. split; [reflexivity | apply typeError_name].
Qed.

Lemma registerCustomMethods_reads_server_per_entry_witness :
  Repl.registerCustomMethods Example.readOnlyGlobal
    (Repl.newRepl (Handler := Example.Handler) (Options := Example.Options)
       (Value := Example.Value) ∅)
  = (Normal (), Repl.newRepl ∅).
Proof.
  destruct (registerCustomMethods_reads_server_per_entry Example.readOnlyGlobal
              (Repl.newRepl (Handler := Example.Handler) (Options := Example.Options)
                 (Value := Example.Value) ∅)) as [Hempty _].
  - reflexivity.
  - apply Hempty. reflexivity.
Defined.



(** ** [evaluateCode] of [src/Repl.ts] *)

Section EvaluateCode.
Context {Handler Options Value : Type}.
Variable processTopLevelAwait : string -> option string.
Variable tsCompiler_compile : string -> string -> Completion string.
Variable runInThisContext :
  string -> gmap string (Repl.Binding Handler Value) ->
  Completion Value * gmap string (Repl.Binding Handler Value).
Implicit Types (ctx : gmap string (Repl.Binding Handler Value)).

Local Abbreviation compile :=
  (Compiler.compile processTopLevelAwait tsCompiler_compile).
Local Abbreviation evaluateCode :=
  (Repl.evaluateCode processTopLevelAwait tsCompiler_compile runInThisContext).
Local Abbreviation caught :=
  (Repl.caught processTopLevelAwait tsCompiler_compile runInThisContext).

(** X7: a value caught from the compile step or from the execution, and
    which the classifier can classify, is handed to the callback exactly
    once and with [null] as the result: wrapped in [Recoverable] when the
    classifier answers [true], as it is when it answers [false]; nothing
    leaves the function. *)
Theorem caught_value_is_reported code fileName ctx error ctx' (b : bool) :
  caught code fileName ctx error ctx' ->
  Repl.isRecoverableError error = Normal b ->
  evaluateCode code fileName ctx =
  mkEvaluation [(if b then ErrRecoverable error else ErrValue error, ResNull)] None ctx'.
Proof. apply evaluateCode_reports_caught. Qed.


(** X10: the callback is asked for more input (an error wrapped in
    [Recoverable]) only for a caught value named [SyntaxError] whose message
    starts with [Unexpected end of input] or [Unexpected token], and always
    with [null] as the result. *)
Theorem recoverable_only_for_incomplete_input code fileName ctx
    (error : JsValue) (result : ResultArg Value) :
  (ErrRecoverable error, result) ∈ calls (evaluateCode code fileName ctx) ->
  result = ResNull
  /\ (exists ctx', caught code fileName ctx error ctx')
  /\ getProp error "name" = Normal (JsString "SyntaxError")
  /\ exists message,
       getProp error "message" = Normal (JsString message) /\
       (startsWith "Unexpected end of input" message \/
        startsWith "Unexpected token" message).
Proof.
  destruct (evaluateCode_cases processTopLevelAwait tsCompiler_compile
              runInThisContext code fileName ctx)
    as [(compiledCode & r & ctx' & Hc & Hr) | (error' & ctx' & Hcaught)].
  - rewrite (evaluateCode_produced _ _ _ _ _ _ _ _ _ Hc Hr). simpl.
    intros Hin. apply list_elem_of_singleton in Hin. discriminate.
  - rewrite (evaluateCode_caught _ _ _ _ _ _ _ _ Hcaught). unfold Repl.onCaught.
    destruct (Repl.isRecoverableError error') as [[|]|e] eqn:Hclass; simpl; intros Hin.
    + apply list_elem_of_singleton in Hin. injection Hin as -> ->.
      split; [reflexivity|]. split; [exists ctx'; exact Hcaught|].
      apply (proj1 Repl_classifier_spec). exact Hclass.
    + apply list_elem_of_singleton in Hin. discriminate.
    + apply elem_of_nil in Hin. contradiction.
Qed.

End EvaluateCode.

Lemma caught_value_is_reported_witness :
  Repl.evaluateCode Example.processTopLevelAwait Example.tsCompiler_compile
    Example.runInThisContext "function f() {" "repl" ∅
  = mkEvaluation
      [(ErrRecoverable (errorObject "SyntaxError" "Unexpected end of input"), ResNull)]
      None ∅.
Proof.
  apply (caught_value_is_reported Example.processTopLevelAwait
           Example.tsCompiler_compile Example.runInThisContext
           "function f() {" "repl" ∅
           (errorObject "SyntaxError" "Unexpected end of input") ∅ true).
  - right. exists "function f() {". split; vm_compute; reflexivity.
  - vm_compute. reflexivity.
Defined.

Lemma recoverable_only_for_incomplete_input_witness :
  getProp (errorObject "SyntaxError" "Unexpected end of input") "name"
    = Normal (JsString "SyntaxError").
Proof.
  apply (recoverable_only_for_incomplete_input Example.processTopLevelAwait
           Example.tsCompiler_compile Example.runInThisContext
           "function f() {" "repl" ∅
           (errorObject "SyntaxError" "Unexpected end of input") ResNull).
  vm_compute. constructor.
Defined.

(** X11: the sandbox is consulted on the compiled text only, and in the
    context of the turn only: two sandboxes that agree there give the same
    evaluation, whatever they do with the raw input or any other text. *)
Theorem sandbox_sees_only_compiled_text {Handler Value : Type}
    (processTopLevelAwait : string -> option string)
    (tsCompiler_compile : string -> string -> Completion string)
    (run1 run2 : string -> gmap string (Repl.Binding Handler Value) ->
                 Completion Value * gmap string (Repl.Binding Handler Value))
    (code fileName : string) (ctx : gmap string (Repl.Binding Handler Value)) :
  (forall compiledCode,
     Compiler.compile processTopLevelAwait tsCompiler_compile fileName code
       = Normal compiledCode ->
     run1 compiledCode ctx = run2 compiledCode ctx) ->
  Repl.evaluateCode processTopLevelAwait tsCompiler_compile run1 code fileName ctx =
  Repl.evaluateCode processTopLevelAwait tsCompiler_compile run2 code fileName ctx.
Proof.
  intros Hagree. unfold Repl.evaluateCode.
  destruct (Compiler.compile _ _ fileName code) as [compiledCode|error];
    [|reflexivity].
  rewrite (Hagree compiledCode eq_refl). reflexivity.
Qed.

Lemma sandbox_sees_only_compiled_text_witness :
  Repl.evaluateCode Example.processTopLevelAwait Example.tsCompiler_compile
    Example.runInThisContext "await 42" "repl" ∅ =
  Repl.evaluateCode Example.processTopLevelAwait Example.tsCompiler_compile
    Example.runInThisContext' "await 42" "repl" ∅.
Proof.
  apply (sandbox_sees_only_compiled_text Example.processTopLevelAwait
           Example.tsCompiler_compile Example.runInThisContext
           Example.runInThisContext' "await 42" "repl" ∅).
  intros compiledCode Hcompiled. vm_compute in Hcompiled.
  injection Hcompiled as <-. vm_compute. reflexivity.
Defined.

(** X12: when the compile step fails the text is not run: the execution
    context is left as it was, whatever sandbox is plugged in, and the
    evaluation is the one of the [catch] clause on the compiler's error. *)
Theorem compile_failure_leaves_context {Handler Value : Type}
    (processTopLevelAwait : string -> option string)
    (tsCompiler_compile : string -> string -> Completion string)
    (runInThisContext : string -> gmap string (Repl.Binding Handler Value) ->
                 Completion Value * gmap string (Repl.Binding Handler Value))
    (code fileName : string) (ctx : gmap string (Repl.Binding Handler Value))
    (error : JsValue) :
  Compiler.compile processTopLevelAwait tsCompiler_compile fileName code
    = Throw error ->
  context (Repl.evaluateCode processTopLevelAwait tsCompiler_compile
             runInThisContext code fileName ctx) = ctx
  /\ Repl.evaluateCode processTopLevelAwait tsCompiler_compile
       runInThisContext code fileName ctx = Repl.onCaught error ctx.
Proof.
  intros Hfail. unfold Repl.evaluateCode. rewrite Hfail.
  split; [apply onCaught_context | reflexivity].
Qed.

Lemma compile_failure_leaves_context_witness :
  context (Repl.evaluateCode Example.processTopLevelAwait
             Example.strictCompiler_compile Example.runInThisContext
             "const n: number = 'a'" "repl" ∅) = ∅
  /\ Repl.evaluateCode Example.processTopLevelAwait
       Example.strictCompiler_compile Example.runInThisContext
       "const n: number = 'a'" "repl" ∅
     = Repl.onCaught
         (errorObject "TSError" "Type 'string' is not assignable to type 'number'.")
         ∅.
Proof.
  apply (compile_failure_leaves_context Example.processTopLevelAwait
           Example.strictCompiler_compile Example.runInThisContext
           "const n: number = 'a'" "repl" ∅).
  vm_compute. reflexivity.
Defined.

(** ** [evaluateCode] of the draft *)


(** X14: the draft never hands a caught value over as a plain error: the
    first argument of every call of the callback is [null] or a
    [Recoverable], and the context is always the one the sandbox left. *)
Theorem draft_never_reports_a_plain_error {Value Ctx : Type}
    (runInThisContext : string -> Ctx -> Completion Value * Ctx)
    (code : string) (ctx : Ctx) :
  Forall (fun call => forall error, fst call <> ErrValue error)
         (calls (Part000.evaluateCode runInThisContext code ctx))
  /\ context (Part000.evaluateCode runInThisContext code ctx)
     = snd (runInThisContext code ctx).
Proof.
  unfold Part000.evaluateCode.
  destruct (runInThisContext code ctx) as [[result|error] ctx'].
  - split; [|reflexivity]. repeat constructor. discriminate.
  - destruct (Part000.isRecoverableError error) as [[|]|e];
      (split; [|reflexivity]); repeat constructor; discriminate.
Qed.

(** X15: on a text that the compile step hands on unchanged and on which
    awaiting the result of the sandbox changes nothing (the awaited run of
    [src/Repl.ts] and the plain run of the draft have the same outcome),
    the two evaluation functions leave the same context, let the same value
    escape and make as many calls of the callback; they report the same
    produced value, and the same recoverable error (the draft with no
    second argument, [src/Repl.ts] with [null]). *)
Theorem draft_agrees_up_to_reporting {Handler Value : Type}
    (processTopLevelAwait : string -> option string)
    (tsCompiler_compile : string -> string -> Completion string)
    (awaitedRun plainRun :
       string -> gmap string (Repl.Binding Handler Value) ->
       Completion Value * gmap string (Repl.Binding Handler Value))
    (code fileName : string) (ctx : gmap string (Repl.Binding Handler Value)) :
  Compiler.compile processTopLevelAwait tsCompiler_compile fileName code
    = Normal code ->
  awaitedRun code ctx = plainRun code ctx ->
  context (Repl.evaluateCode processTopLevelAwait tsCompiler_compile
             awaitedRun code fileName ctx)
    = context (Part000.evaluateCode plainRun code ctx)
  /\ escaped (Repl.evaluateCode processTopLevelAwait tsCompiler_compile
                awaitedRun code fileName ctx)
     = escaped (Part000.evaluateCode plainRun code ctx)
  /\ length (calls (Repl.evaluateCode processTopLevelAwait tsCompiler_compile
                      awaitedRun code fileName ctx))
     = length (calls (Part000.evaluateCode plainRun code ctx))
  /\ (forall result,
        calls (Part000.evaluateCode plainRun code ctx)
          = [(ErrNull, ResValue result)] <->
        calls (Repl.evaluateCode processTopLevelAwait tsCompiler_compile
                 awaitedRun code fileName ctx)
          = [(ErrNull, ResValue result)])
  /\ (forall error,
        calls (Part000.evaluateCode plainRun code ctx)
          = [(ErrRecoverable error, ResUndefined)] <->
        calls (Repl.evaluateCode processTopLevelAwait tsCompiler_compile
                 awaitedRun code fileName ctx)
          = [(ErrRecoverable error, ResNull)]).
Proof.
  intros Hsame Hawait. unfold Repl.evaluateCode, Part000.evaluateCode.
  rewrite Hsame, Hawait.
  destruct (plainRun code ctx) as [[result|error] ctx'].
  - repeat split; simpl; congruence.
  - unfold Repl.onCaught. rewrite <- Part000_isRecoverableError_unfold.
    destruct (Part000.isRecoverableError error) as [[|]|e];
      repeat split; simpl; congruence.
Qed.

Lemma draft_agrees_up_to_reporting_witness :
  context (Repl.evaluateCode Example.processTopLevelAwait
             Example.tsCompiler_compile Example.runInThisContext
             "const x = 5" "repl" ∅)
  = context (Part000.evaluateCode Example.runInThisContext "const x = 5" ∅).
Proof.
  apply (draft_agrees_up_to_reporting Example.processTopLevelAwait
           Example.tsCompiler_compile Example.runInThisContext
           Example.runInThisContext "const x = 5" "repl" ∅).
  - vm_compute. reflexivity.
  - reflexivity.
Defined.

(** ** The classifier on unusual values *)

(** X16: a thrown string or boolean is never recoverable, not even the
    string [Unexpected token] itself: such a value has no [name]. *)
Theorem thrown_primitive_is_not_recoverable :
  (forall s : string, Repl.isRecoverableError (Prim (JsString s)) = Normal false)
  /\ (forall b : bool, Repl.isRecoverableError (Prim (JsBool b)) = Normal false)
  /\ (forall s : string, Part000.isRecoverableError (Prim (JsString s)) = Normal false)
  /\ (forall b : bool, Part000.isRecoverableError (Prim (JsBool b)) = Normal false).
Proof. repeat split; intros; reflexivity. Qed.

(** X17: the classifier looks at [name] and [message] only: two objects
    that agree on these two properties are classified alike, whatever else
    they carry ([stack], [code], ...). *)
Theorem classification_reads_name_and_message (props props' : gmap string JsPrim) :
  props !! "name" = props' !! "name" ->
  props !! "message" = props' !! "message" ->
  Repl.isRecoverableError (Obj props) = Repl.isRecoverableError (Obj props')
  /\ Part000.isRecoverableError (Obj props) = Part000.isRecoverableError (Obj props').
Proof.
  intros Hname Hmessage. rewrite Part000_isRecoverableError_unfold.
  rewrite !isRecoverableError_Obj, Hname, Hmessage. split; reflexivity.
Qed.

Lemma classification_reads_name_and_message_witness :
  Repl.isRecoverableError
    (Obj (<["stack" := JsString "at REPL1:1:1"]>
            (<["name" := JsString "SyntaxError"]>
               (<["message" := JsString "Unexpected token ')'"]> ∅))))
  = Repl.isRecoverableError (errorObject "SyntaxError" "Unexpected token ')'").
Proof.
  apply (classification_reads_name_and_message
           (<["stack" := JsString "at REPL1:1:1"]>
              (<["name" := JsString "SyntaxError"]>
                 (<["message" := JsString "Unexpected token ')'"]> ∅)))
           (<["name" := JsString "SyntaxError"]>
              (<["message" := JsString "Unexpected token ')'"]> ∅)));
    vm_compute; reflexivity.
Defined.

(** ** The compiler adapter on its edge cases *)


